(** * keymaster: the HTTP calibration stub and its basic-auth gate

    A shallow embedding of [src/auth.py] and [src/keymaster_api.py].

    - Python [float] is IEEE binary64, modelled by [spec_float] values in
      canonical form (53-bit precision, [emax = 1024]); nothing is rounded
      behind the reader's back, every literal is written with its mantissa
      and exponent and shown to be the double nearest to the decimal text.
    - Python [int] is [Z]; [len] of a list is [Z.of_nat (length _)].
    - Python [str] is [string]; a character with code 128 or more stands
      for a non-ASCII code point.
    - Python [dict] with string keys is [gmap string _].
    - The module-level state (the [users] dict of auth.py and the records
      handed to the [logger] of keymaster_api.py) is threaded explicitly
      through a state-and-exception monad [M]. *)

From Stdlib Require Import ZArith String Ascii DecimalString DecimalN.
From Stdlib Require Import Floats.SpecFloat.
From stdpp Require Import gmap strings list.

Local Open Scope Z_scope.

(** ** Python values *)

Module Py.

Abbreviation float := spec_float.

(** binary64 *)
Definition prec : Z := 53.
Definition emax : Z := 1024.

Definition is_binary64 (f : float) : bool := valid_binary prec emax f.

(** [math.isfinite] *)
Definition isfinite (f : float) : bool :=
  match f with
  | S754_zero _ | S754_finite _ _ _ => true
  | S754_infinity _ | S754_nan => false
  end.

(** The float literals of the source.  [1.0 = 2^52 * 2^-52],
    [0.0012 = 5534023222112865 * 2^-62] (0x1.3a92a30553261p-10). *)
Definition f_0_0 : float := S754_zero false.
Definition f_1_0 : float := S754_finite false 4503599627370496 (-52).
Definition f_0_0012 : float := S754_finite false 5534023222112865 (-62).

(** [a == b], [a <= b] on floats *)
Definition float_eq (a b : float) : bool := SFeqb a b.
Definition float_le (a b : float) : bool := SFleb a b.

(** [n / d] rounded to the nearest integer, ties to even
    (for [0 <= n], [0 < d]). *)
Definition round_half_even (n d : Z) : Z :=
  let q := n / d in
  match 2 * (n mod d) ?= d with
  | Lt => q
  | Gt => q + 1
  | Eq => if Z.even q then q else q + 1
  end.

(** [|m * 2^e| * 10^4], correctly rounded to an integer. *)
Definition scaled4 (m : positive) (e : Z) : Z :=
  if 0 <=? e then Z.pos m * 2 ^ e * 10 ^ 4
  else round_half_even (Z.pos m * 10 ^ 4) (2 ^ (- e)).

Definition digit (d : Z) : string :=
  String (ascii_of_nat (48 + Z.to_nat (d mod 10))) EmptyString.

(** a non-negative integer in decimal, no leading zeros, ["0"] for 0 *)
Definition dec (n : Z) : string :=
  NilEmpty.string_of_uint (N.to_uint (Z.to_N n)).

(** four decimal digits, zero padded *)
Definition dec4 (n : Z) : string :=
  digit (n / 1000) +:+ digit (n / 100) +:+ digit (n / 10) +:+ digit n.

Definition sign_str (s : bool) : string := if s then "-" else "".

(** [format(f, '.4f')]: fixed point with four digits after the point,
    correctly rounded from the exact binary value; [inf] and [nan] are
    spelled out, and the sign of a negative value is kept even when the
    digits round to zero. *)
Definition format_4f (f : float) : string :=
  match f with
  | S754_nan => "nan"
  | S754_infinity s => sign_str s +:+ "inf"
  | S754_zero s => sign_str s +:+ "0.0000"
  | S754_finite s m e =>
      let n := scaled4 m e in
      sign_str s +:+ dec (n / 10 ^ 4) +:+ "." +:+ dec4 (n mod 10 ^ 4)
  end.

(** The sign bit and the magnitude [|f| = n / d] of a finite float. *)
Definition signbit (f : float) : bool :=
  match f with
  | S754_zero s | S754_infinity s | S754_finite s _ _ => s
  | S754_nan => false
  end.

Definition magnitude (f : float) : Z * Z :=
  match f with
  | S754_finite _ m e =>
      if 0 <=? e then (Z.pos m * 2 ^ e, 1) else (Z.pos m, 2 ^ (- e))
  | _ => (0, 1)
  end.

(** The number a string of decimal digits denotes. *)
Definition digit_val (c : ascii) : Z := Z.of_nat (nat_of_ascii c) - 48.

Definition isdigit (c : ascii) : bool :=
  (0 <=? digit_val c) && (digit_val c <=? 9).

Fixpoint decimal_value_acc (acc : Z) (s : string) : Z :=
  match s with
  | EmptyString => acc
  | String c s' => decimal_value_acc (10 * acc + digit_val c) s'
  end.

Definition decimal_value (s : string) : Z := decimal_value_acc 0 s.

Definition all_digits (s : string) : bool :=
  forallb isdigit (list_ascii_of_string s).

(** [str] values that [secrets.compare_digest] accepts *)
Definition isascii (s : string) : bool :=
  forallb (fun c => (nat_of_ascii c <? 128)%nat) (list_ascii_of_string s).

End Py.

(** ** The process state and the effect monad *)

(** The two bounds [Field(..., min_items=16, max_items=16)] puts on a list. *)
Inductive list_bound := min_items | max_items.

(** What a handler can raise.  [HTTPException] is fastapi's; the other
    three are what the calls made in the source can raise.  A
    [ValidationError] is kept as what it reports: the field, the bound
    that is broken and its limit. *)
Inductive exn :=
| ValidationError (loc : string) (bound : list_bound) (limit_value : Z)
| TypeError (msg : string)
| KeyError (key : string)
| HTTPException (status_code : Z) (detail : string)
                (headers : gmap string string).

(** A formatted message is kept as the parts of its f-string: the
    literal text and the values substituted into it.  [str(e)] of an
    exception is kept as the exception it renders. *)
Inductive fragment :=
| Text (s : string)
| IntValue (n : Z)
| FloatValue (f : Py.float)
| StrValue (s : string)
| ExnValue (e : exn).

Inductive levelname := INFO | ERROR.

Record log_record := LogRecord { level : levelname; message : list fragment }.

(** [auth_users] is the module-level dict [users] of auth.py, [log] the records emitted
    through the module-level [logger] of keymaster_api.py, oldest first. *)
Record world :=
  World { auth_users : gmap string string; log : list log_record }.

Definition M (A : Type) : Type := world -> (exn + A) * world.

Definition ret {A} (a : A) : M A := fun w => (inr a, w).

Definition bind {A B} (m : M A) (k : A -> M B) : M B :=
  fun w => match m w with
           | (inr a, w') => k a w'
           | (inl e, w') => (inl e, w')
           end.

Definition raise {A} (e : exn) : M A := fun w => (inl e, w).

(** [try: body  except Exception as e: handler e] *)
Definition try_except {A} (body : M A) (handler : exn -> M A) : M A :=
  fun w => match body w with
           | (inr a, w') => (inr a, w')
           | (inl e, w') => handler e w'
           end.

Declare Scope py_scope.
Delimit Scope py_scope with py.
Notation "x <- m ;; k" := (bind m (fun x => k))
  (at level 100, m at next level, right associativity) : py_scope.
Notation "m ;;; k" := (bind m (fun _ => k))
  (at level 100, right associativity) : py_scope.

Definition emit (l : levelname) (msg : list fragment) : M unit :=
  fun w => (inr tt, World (auth_users w) (log w ++ [LogRecord l msg])).

Definition logger_info := emit INFO.
Definition logger_error := emit ERROR.

Definition len {A} (l : list A) : Z := Z.of_nat (length l).

(** ** Library calls used by the source *)

Module secrets.

(** [secrets.compare_digest(a, b)] on two [str]: equality of the two
    strings, and [TypeError] when either holds a non-ASCII character. *)
Definition compare_digest (a b : string) : M bool :=
  if Py.isascii a && Py.isascii b then ret (bool_decide (a = b))
  else raise (TypeError
                "comparing strings with non-ASCII characters is not supported").

End secrets.

(** ** auth.py *)

Module auth.

Record HTTPBasicCredentials :=
  { username : string; password : string }.

(** the [users] dict as the module creates it *)
Definition users : gmap string string := {[ "admin" := "password123" ]}.

(** [users[key]] *)
Definition users_getitem (key : string) : M string :=
  fun w => match auth_users w !! key with
           | Some v => (inr v, w)
           | None => (inl (KeyError key), w)
           end.

Definition HTTP_401_UNAUTHORIZED : Z := 401.

Definition authenticate (credentials : HTTPBasicCredentials) : M string :=
  (correct_username <- secrets.compare_digest (username credentials) "admin" ;;
   stored <- users_getitem "admin" ;;
   correct_password <- secrets.compare_digest (password credentials) stored ;;
   if negb (correct_username && correct_password)
   then raise (HTTPException HTTP_401_UNAUTHORIZED
                 "Incorrect username or password"
                 {[ "WWW-Authenticate" := "Basic" ]})
   else ret (username credentials))%py.

(** [protected_route] with its dependency [authenticate], run on the
    credentials that [Depends(security)] hands over. *)
Definition protected_route (credentials : HTTPBasicCredentials)
  : M (gmap string string) :=
  (username <- authenticate credentials ;;
   ret {[ "message" := "Hello, " +:+ username +:+ ". You are authenticated." ]})%py.

(** What the Authorization header of a request amounts to for
    [security = HTTPBasic()]: no header or a scheme other than basic; or
    a basic parameter, with the octets [b64decode] gives for it, [None]
    when it raises. *)
Inductive authorization :=
| NotBasic
| Basic (decoded : option string).

(** [data.partition(":")]: the text before the first colon, whether
    there is one, and the text after it. *)
Fixpoint partition_colon (data : string) : string * bool * string :=
  match data with
  | EmptyString => (EmptyString, false, EmptyString)
  | String c data' =>
      if Ascii.eqb c ":" then (EmptyString, true, data')
      else let '(head, separator, tail) := partition_colon data' in
           (String c head, separator, tail)
  end.

(** [HTTPBasic.__call__], without realm and with auto_error: 401 "Not
    authenticated" without a basic header; 401 "Invalid authentication
    credentials" when the parameter is not base64, the octets do not
    decode as ASCII or hold no colon; else the two sides of the first
    colon. *)
Definition security (a : authorization) : M HTTPBasicCredentials :=
  match a with
  | NotBasic =>
      raise (HTTPException HTTP_401_UNAUTHORIZED "Not authenticated"
               {[ "WWW-Authenticate" := "Basic" ]})
  | Basic None =>
      raise (HTTPException HTTP_401_UNAUTHORIZED
               "Invalid authentication credentials"
               {[ "WWW-Authenticate" := "Basic" ]})
  | Basic (Some octets) =>
      if Py.isascii octets then
        let '(username, separator, password) := partition_colon octets in
        if separator then
          ret {| username := username; password := password |}
        else
          raise (HTTPException HTTP_401_UNAUTHORIZED
                   "Invalid authentication credentials"
                   {[ "WWW-Authenticate" := "Basic" ]})
      else
        raise (HTTPException HTTP_401_UNAUTHORIZED
                 "Invalid authentication credentials"
                 {[ "WWW-Authenticate" := "Basic" ]})
  end.

(** [GET /api/protected] from the header on: [security], then
    [authenticate], then the route. *)
Definition api_protected (a : authorization) : M (gmap string string) :=
  (credentials <- security a ;; protected_route credentials)%py.

End auth.

(** ** keymaster_api.py *)

Module keymaster_api.

Record PointModel := { x : Py.float; y : Py.float; z : Py.float }.

Record CalibrationResultModel :=
  { rmse : Py.float;
    transform_elements : list Py.float;
    source_platform : string;
    num_points_used : Z }.

Record CalibrationRequestModel :=
  { arw_points : list PointModel; rwp_points : list PointModel }.

Record AnalysisRequestModel :=
  { result : CalibrationResultModel; prompt : string }.

(** [CalibrationResultModel(rmse=.., transform_elements=.., ..)]: the
    constructor validates [Field(..., min_items=16, max_items=16)]. *)
Definition CalibrationResultModel_init
    (rmse : Py.float) (transform_elements : list Py.float)
    (source_platform : string) (num_points_used : Z)
  : M CalibrationResultModel :=
  if len transform_elements <? 16 then
    raise (ValidationError "transform_elements" min_items 16)
  else if 16 <? len transform_elements then
    raise (ValidationError "transform_elements" max_items 16)
  else
    ret {| rmse := rmse;
           transform_elements := transform_elements;
           source_platform := source_platform;
           num_points_used := num_points_used |}.

(** What a handler hands back to the framework: its value, or an
    explicit [JSONResponse(status_code=.., content=..)], whose content
    values are kept as fragments. *)
Inductive response (A : Type) :=
| Returned (a : A)
| JSONResponse (status_code : Z) (content : gmap string fragment).
Arguments Returned {A} a.
Arguments JSONResponse {A} status_code content.

(** [POST /api/calibrate] *)
Definition calibrate (request : CalibrationRequestModel)
  : M (response CalibrationResultModel) :=
  try_except
    (logger_info [Text "Received calibration request with ";
                  IntValue (len (arw_points request));
                  Text " ARW points and ";
                  IntValue (len (rwp_points request));
                  Text " RWP points."] ;;;
     mock_result <-
       CalibrationResultModel_init
         Py.f_0_0012
         (map (fun i => if i mod 5 =? 0 then Py.f_1_0 else Py.f_0_0)
              (seqZ 0 16))
         "python"
         (len (arw_points request)) ;;
     logger_info [Text "Returning mock calibration result: RMSE=";
                  FloatValue (rmse mock_result)] ;;;
     ret (Returned mock_result))%py
    (fun e =>
       logger_error [Text "Error in /api/calibrate: "; ExnValue e] ;;;
       ret (JSONResponse 500 {[ "error" := ExnValue e ]}))%py.

(** [POST /api/analyze] *)
Definition analyze (request : AnalysisRequestModel)
  : M (response (gmap string string)) :=
  try_except
    (logger_info [Text "Received analysis request with RMSE=";
                  FloatValue (rmse (result request));
                  Text " and prompt='";
                  StrValue (prompt request);
                  Text "'"] ;;;
     let analysis_text :=
       "AI Analysis: The received RMSE is "
         +:+ Py.format_4f (rmse (result request))
         +:+ ". Data parsed successfully." in
     logger_info [Text "Returning mock analysis text."] ;;;
     ret (Returned {[ "analysis" := analysis_text ]}))%py
    (fun e =>
       logger_error [Text "Error in /api/analyze: "; ExnValue e] ;;;
       ret (JSONResponse 500 {[ "error" := ExnValue e ]}))%py.

End keymaster_api.

(** ** Vocabulary of the statements *)

Import keymaster_api.

(** The 4x4 identity, row-major. *)
Definition identity_4x4 : list Py.float :=
  [ Py.f_1_0; Py.f_0_0; Py.f_0_0; Py.f_0_0;
    Py.f_0_0; Py.f_1_0; Py.f_0_0; Py.f_0_0;
    Py.f_0_0; Py.f_0_0; Py.f_1_0; Py.f_0_0;
    Py.f_0_0; Py.f_0_0; Py.f_0_0; Py.f_1_0 ].

(** A handler run from state [w] hands back the value [a] ... *)
Definition returns {A} (m : M (response A)) (w : world) (a : A) : Prop :=
  fst (m w) = inr (Returned a).

(** ... or ends in any other way: an exception that escapes, or an
    explicit error response. *)
Definition fails {A} (m : M (response A)) (w : world) : Prop :=
  forall a, fst (m w) <> inr (Returned a).

(** A real number, as opposed to [inf] and [nan], in binary64. *)
Definition is_real (f : Py.float) : Prop :=
  Py.is_binary64 f = true /\ Py.isfinite f = true.

(** The output shape of section 6 of the specification. *)
Record output_shape (r : CalibrationResultModel) : Prop :=
  { shape_length : length (transform_elements r) = 16%nat;
    shape_reals : Forall is_real (transform_elements r);
    shape_bottom_row :
      drop 12 (transform_elements r) = [Py.f_0_0; Py.f_0_0; Py.f_0_0; Py.f_1_0];
    shape_rmse_real : is_real (rmse r);
    shape_rmse_nonneg : Py.float_le Py.f_0_0 (rmse r) = true;
    shape_num_points : 0 <= num_points_used r }.

(** The state of a fresh process. *)
Definition initial_world : world := World auth.users [].

(** The two records a successful [calibrate] leaves in the log. *)
Definition calibrate_log (request : CalibrationRequestModel) : list log_record :=
  [ LogRecord INFO [Text "Received calibration request with ";
                    IntValue (len (arw_points request));
                    Text " ARW points and ";
                    IntValue (len (rwp_points request));
                    Text " RWP points."];
    LogRecord INFO [Text "Returning mock calibration result: RMSE=";
                    FloatValue Py.f_0_0012] ].

(** Sample inputs. *)
Definition pt (a b c : Py.float) : PointModel := {| x := a; y := b; z := c |}.
Definition pt_a : PointModel := pt Py.f_1_0 Py.f_0_0 Py.f_0_0.
Definition pt_b : PointModel := pt Py.f_0_0 Py.f_1_0 Py.f_0_0.
Definition pt_c : PointModel := pt Py.f_0_0 Py.f_0_0 Py.f_1_0.

Definition request_1_1 : CalibrationRequestModel :=
  {| arw_points := [pt_a]; rwp_points := [pt_a] |}.
Definition request_3_2 : CalibrationRequestModel :=
  {| arw_points := [pt_a; pt_b; pt_c]; rwp_points := [pt_a; pt_b] |}.
Definition request_2_2 : CalibrationRequestModel :=
  {| arw_points := [pt_a; pt_b]; rwp_points := [pt_b; pt_c] |}.

(** A fixed-point text cut at its first point: the integer digits and
    what follows the point. *)
Fixpoint split_point (s : string) : string * string :=
  match s with
  | EmptyString => (EmptyString, EmptyString)
  | String c s' =>
      if Ascii.eqb c "." then (EmptyString, s')
      else (String c (fst (split_point s')), snd (split_point s'))
  end.

(** The fixed text around the echoed rmse in the analysis. *)
Definition analysis_of (echo : string) : string :=
  "AI Analysis: The received RMSE is " +:+ echo +:+ ". Data parsed successfully.".

(** * Properties *)

(** ** Floats and their formatting *)

Lemma f_1_0_binary64 : Py.is_binary64 Py.f_1_0 = true.
Proof. reflexivity. Qed.

(** [f_1_0] is exactly one: its magnitude is [2^52 / 2^52]. *)
Lemma f_1_0_exact :
  Py.signbit Py.f_1_0 = false
  /\ fst (Py.magnitude Py.f_1_0) = snd (Py.magnitude Py.f_1_0).
Proof. split; reflexivity. Qed.

Lemma f_0_0012_binary64 : Py.is_binary64 Py.f_0_0012 = true.
Proof. reflexivity. Qed.

(** [f_0_0012] is within half a unit in the last place of 12/10000, so it
    is the double the literal [0.0012] denotes. *)
Lemma f_0_0012_nearest :
  match Py.f_0_0012 with
  | S754_finite false m e =>
      e = -62 /\ 2 * Z.abs (Z.pos m * 10 ^ 4 - 12 * 2 ^ 62) <= 10 ^ 4
  | _ => False
  end.
Proof. cbn. split; [reflexivity | lia]. Qed.

Lemma round_half_even_nearest (n d : Z) :
  0 <= n -> 0 < d ->
  0 <= Py.round_half_even n d /\
  2 * Z.abs (n - Py.round_half_even n d * d) <= d.
Proof.
  intros Hn Hd. unfold Py.round_half_even.
  pose proof (Z.div_mod n d ltac:(lia)) as Hdm.
  pose proof (Z.mod_pos_bound n d Hd) as Hb.
  pose proof (Z.div_pos n d Hn Hd) as Hq.
  destruct (Z.compare_spec (2 * (n mod d)) d); [destruct (Z.even (n / d))| |];
    split; nia.
Qed.

(** On a tie the even neighbour is chosen. *)
Lemma round_half_even_tie (n d : Z) :
  2 * (n mod d) = d -> Z.even (Py.round_half_even n d) = true.
Proof.
  intros H. unfold Py.round_half_even. rewrite H, Z.compare_refl.
  destruct (Z.even (n / d)) eqn:E; [exact E|].
  rewrite Z.even_add, E. reflexivity.
Qed.

Lemma scaled4_nearest (s : bool) (m : positive) (e : Z) :
  0 <= Py.scaled4 m e /\
  2 * Z.abs (fst (Py.magnitude (S754_finite s m e)) * 10 ^ 4
             - Py.scaled4 m e * snd (Py.magnitude (S754_finite s m e)))
    <= snd (Py.magnitude (S754_finite s m e)).
Proof.
  unfold Py.scaled4, Py.magnitude.
  destruct (Z.leb_spec 0 e) as [He|He]; cbn [fst snd].
  - assert (0 < 2 ^ e) by (apply Z.pow_pos_nonneg; lia). split; nia.
  - assert (0 < 2 ^ (- e)) by (apply Z.pow_pos_nonneg; lia).
    apply round_half_even_nearest; lia.
Qed.

(** *** Decimal digits *)

Lemma decimal_value_acc_app (a b : string) (acc : Z) :
  Py.decimal_value_acc acc (a +:+ b)
  = Py.decimal_value_acc (Py.decimal_value_acc acc a) b.
Proof. revert acc. induction a as [|c a IH]; intros acc; cbn; [reflexivity | apply IH]. Qed.

Lemma decimal_value_uint_acc (d : Decimal.uint) (acc : positive) :
  Py.decimal_value_acc (Z.pos acc) (NilEmpty.string_of_uint d)
  = Z.pos (Pos.of_uint_acc d acc).
Proof.
  revert acc.
  induction d; intros acc;
    cbn [NilEmpty.string_of_uint Py.decimal_value_acc Pos.of_uint_acc];
    [reflexivity | rewrite <- IHd; f_equal; unfold Py.digit_val ..].
  all: try match goal with
           | |- context [Z.of_nat (nat_of_ascii ?c)] =>
               let v := eval vm_compute in (Z.of_nat (nat_of_ascii c)) in
               change (Z.of_nat (nat_of_ascii c)) with v
           end; lia.
Qed.

Lemma decimal_value_uint (d : Decimal.uint) :
  Py.decimal_value (NilEmpty.string_of_uint d) = Z.of_N (Pos.of_uint d).
Proof.
  unfold Py.decimal_value.
  induction d; cbn [NilEmpty.string_of_uint Py.decimal_value_acc Pos.of_uint];
    [reflexivity | exact IHd | apply (decimal_value_uint_acc d) ..].
Qed.

Lemma decimal_value_dec (n : Z) : 0 <= n -> Py.decimal_value (Py.dec n) = n.
Proof.
  intros Hn. unfold Py.dec. rewrite decimal_value_uint.
  change (Pos.of_uint ?d) with (N.of_uint d).
  rewrite DecimalN.Unsigned.of_to. lia.
Qed.

Lemma all_digits_uint (d : Decimal.uint) :
  Py.all_digits (NilEmpty.string_of_uint d) = true.
Proof. unfold Py.all_digits. induction d; cbn; auto. Qed.

Lemma all_digits_dec (n : Z) : Py.all_digits (Py.dec n) = true.
Proof. apply all_digits_uint. Qed.

Lemma digit_spec (acc d : Z) :
  Py.decimal_value_acc acc (Py.digit d) = 10 * acc + d mod 10
  /\ Py.all_digits (Py.digit d) = true.
Proof.
  pose proof (Z.mod_pos_bound d 10 ltac:(lia)) as Hb.
  unfold Py.digit, Py.all_digits.
  cbn [Py.decimal_value_acc list_ascii_of_string forallb].
  unfold Py.isdigit, Py.digit_val.
  rewrite !nat_ascii_embedding by lia.
  split; [lia|].
  rewrite andb_true_r. apply andb_true_intro; split; apply Z.leb_le; lia.
Qed.

Lemma dec4_length (n : Z) : String.length (Py.dec4 n) = 4%nat.
Proof. reflexivity. Qed.

Lemma all_digits_app (a b : string) :
  Py.all_digits (a +:+ b) = Py.all_digits a && Py.all_digits b.
Proof.
  unfold Py.all_digits.
  induction a as [|c a IH]; [reflexivity|].
  change (String c a +:+ b) with (String c (a +:+ b)).
  cbn [list_ascii_of_string forallb]. rewrite IH. apply andb_assoc.
Qed.

Lemma all_digits_dec4 (n : Z) : Py.all_digits (Py.dec4 n) = true.
Proof.
  unfold Py.dec4. rewrite !all_digits_app.
  by rewrite !(proj2 (digit_spec 0 _)).
Qed.

Lemma decimal_value_dec4 (n : Z) :
  0 <= n < 10 ^ 4 -> Py.decimal_value (Py.dec4 n) = n.
Proof.
  intros Hn. unfold Py.decimal_value, Py.dec4.
  rewrite !decimal_value_acc_app, !(proj1 (digit_spec _ _)).
  pose proof (Z.div_mod n 10 ltac:(lia)).
  pose proof (Z.div_mod (n / 10) 10 ltac:(lia)).
  pose proof (Z.div_mod (n / 10 / 10) 10 ltac:(lia)).
  rewrite !Z.div_div in * by lia. change (10 * 10) with 100 in *.
  change (100 * 10) with 1000 in *.
  assert (n / 1000 < 10) by (apply Z.div_lt_upper_bound; lia).
  assert (0 <= n / 1000) by (apply Z.div_pos; lia).
  rewrite (Z.mod_small (n / 1000) 10) by lia. lia.
Qed.

(** *** [format_4f] on the reals: sign, integer digits, a point and four
    fraction digits that read back as the nearest multiple of 1/10000. *)
Lemma format_4f_fixed_point (f : Py.float) :
  Py.isfinite f = true ->
  exists ip fp : string,
    Py.format_4f f = Py.sign_str (Py.signbit f) +:+ ip +:+ "." +:+ fp
    /\ String.length fp = 4%nat
    /\ Py.all_digits ip = true /\ Py.all_digits fp = true
    /\ 2 * Z.abs (fst (Py.magnitude f) * 10 ^ 4
                  - (Py.decimal_value ip * 10 ^ 4 + Py.decimal_value fp)
                    * snd (Py.magnitude f))
       <= snd (Py.magnitude f).
Proof.
  destruct f as [s|s| |s m e]; try discriminate; intros _.
  - exists "0"%string, "0000"%string.
    repeat (split; [reflexivity|]).
    change (2 * Z.abs (0 * 10 ^ 4 - (0 * 10 ^ 4 + 0) * 1) <= 1). lia.
  - destruct (scaled4_nearest s m e) as [Hpos Hnear].
    set (n := Py.scaled4 m e) in *.
    pose proof (Z.mod_pos_bound n (10 ^ 4) ltac:(lia)) as Hb.
    pose proof (Z.div_pos n (10 ^ 4) Hpos ltac:(lia)) as Hq.
    exists (Py.dec (n / 10 ^ 4)), (Py.dec4 (n mod 10 ^ 4)).
    split; [reflexivity|]. split; [apply dec4_length|].
    split; [apply all_digits_dec|]. split; [apply all_digits_dec4|].
    rewrite decimal_value_dec, decimal_value_dec4 by lia.
    replace (n / 10 ^ 4 * 10 ^ 4 + n mod 10 ^ 4) with n; [exact Hnear|].
    pose proof (Z.div_mod n (10 ^ 4) ltac:(lia)). lia.
Qed.

(** ** The handlers, run *)

(** The pydantic constructor accepts exactly the lists of 16 elements. *)
Lemma CalibrationResultModel_init_ok
    (r : Py.float) (te : list Py.float) (sp : string) (n : Z) (w : world) :
  length te = 16%nat ->
  CalibrationResultModel_init r te sp n w
  = (inr {| rmse := r; transform_elements := te;
            source_platform := sp; num_points_used := n |}, w).
Proof.
  intros H. unfold CalibrationResultModel_init, len. rewrite H. reflexivity.
Qed.

Lemma CalibrationResultModel_init_rejects
    (r : Py.float) (te : list Py.float) (sp : string) (n : Z) (w : world) :
  length te <> 16%nat ->
  exists bound,
    CalibrationResultModel_init r te sp n w
    = (inl (ValidationError "transform_elements" bound 16), w).
Proof.
  intros H. unfold CalibrationResultModel_init, len.
  destruct (Z.ltb_spec (Z.of_nat (length te)) 16); [eauto|].
  destruct (Z.ltb_spec 16 (Z.of_nat (length te))); [eauto|]. lia.
Qed.

(** The list comprehension of line 42. *)
Lemma transform_comprehension :
  map (fun i => if i mod 5 =? 0 then Py.f_1_0 else Py.f_0_0) (seqZ 0 16)
  = identity_4x4.
Proof. reflexivity. Qed.

(** One run of [calibrate]: the value handed back and the state left. *)
Lemma calibrate_run (request : CalibrationRequestModel) (w : world) :
  calibrate request w
  = (inr (Returned {| rmse := Py.f_0_0012;
                      transform_elements := identity_4x4;
                      source_platform := "python";
                      num_points_used := len (arw_points request) |}),
     World (auth_users w) (log w ++ calibrate_log request)).
Proof.
  unfold calibrate, try_except, bind, logger_info, emit, ret.
  rewrite transform_comprehension.
  rewrite CalibrationResultModel_init_ok by reflexivity.
  cbn [rmse auth_users log]. by rewrite <- app_assoc.
Qed.

(** The [except] branch of [calibrate] is never taken. *)
Lemma calibrate_no_error (request : CalibrationRequestModel) (w : world) :
  ~ fails (calibrate request) w.
Proof. intros H. eapply H. by rewrite calibrate_run. Qed.

Lemma analyze_run (request : AnalysisRequestModel) (w : world) :
  analyze request w
  = (inr (Returned
            {[ "analysis" :=
                 "AI Analysis: The received RMSE is "
                   +:+ Py.format_4f (rmse (result request))
                   +:+ ". Data parsed successfully." ]}),
     World (auth_users w)
       (log w ++ [ LogRecord INFO [Text "Received analysis request with RMSE=";
                                   FloatValue (rmse (result request));
                                   Text " and prompt='";
                                   StrValue (prompt request);
                                   Text "'"];
                   LogRecord INFO [Text "Returning mock analysis text."] ])).
Proof.
  unfold analyze, try_except, bind, logger_info, emit, ret.
  cbn [auth_users log]. by rewrite <- app_assoc.
Qed.

(** What [calibrate] reports, fed to [analyze]. *)
Example analyze_after_calibrate :
  exists r,
    returns (calibrate request_3_2) initial_world r /\
    returns (analyze {| result := r; prompt := "Analyze this result." |})
            initial_world
            {[ "analysis" :=
                 "AI Analysis: The received RMSE is 0.0012. Data parsed successfully." ]}.
Proof.
  eexists. split; unfold returns; [by rewrite calibrate_run|].
  by rewrite analyze_run.
Qed.

(** Ties go to the even digit, the sign survives rounding to zero. *)
Example format_4f_samples :
  Py.format_4f (S754_finite false 1 (-5)) = "0.0312"%string /\
  Py.format_4f (S754_finite false 3 (-5)) = "0.0938"%string /\
  Py.format_4f (S754_finite true 1 (-1074)) = "-0.0000"%string /\
  Py.format_4f (S754_finite false 5 (-1)) = "2.5000"%string /\
  Py.format_4f (S754_infinity true) = "-inf"%string /\
  Py.format_4f S754_nan = "nan"%string.
Proof. repeat split; vm_compute; reflexivity. Qed.

(** ** The basic-auth gate *)




(** ** The calibration endpoint *)

(** C1. For every calibration request, whatever its points and whatever
    the state of the process, [calibrate] hands back a result whose 16
    row-major transform elements are the 4x4 identity: 1.0 at indices 0,
    5, 10 and 15, 0.0 at the other twelve, and nothing beyond index 15. *)
Theorem calibrate_transform_is_identity :
  forall (request : CalibrationRequestModel) (w : world),
  exists r : CalibrationResultModel,
    returns (calibrate request) w r
    /\ transform_elements r = identity_4x4
    /\ forall i : nat,
         transform_elements r !! i
         = if decide (i < 16)%nat
           then Some (if bool_decide (i ∈ [0; 5; 10; 15]%nat)
                      then Py.f_1_0 else Py.f_0_0)
           else None.
Proof.
  intros request w. eexists. split; [unfold returns; by rewrite calibrate_run|].
  split; [reflexivity|]. intros i. cbn [transform_elements].
  do 16 (destruct i as [|i]; [reflexivity|]).
  case_decide; [lia|]. reflexivity.
Qed.

(** C2, as the specification words it, fails on the stub: fitting the
    one-point set [[pt_a]] to itself does not give an rmse equal to 0. *)
Lemma calibrate_self_fit_rmse_not_zero :
  arw_points request_1_1 = rwp_points request_1_1
  /\ arw_points request_1_1 <> []
  /\ ~ exists r : CalibrationResultModel,
         returns (calibrate request_1_1) initial_world r
         /\ transform_elements r = identity_4x4
         /\ Py.float_eq (rmse r) Py.f_0_0 = true.
Proof.
  split; [reflexivity|]. split; [discriminate|].
  intros (r & Hr & _ & H0). unfold returns in Hr.
  rewrite calibrate_run in Hr. cbn [fst] in Hr.
  injection Hr as <-. discriminate H0.
Qed.

(** C2, amended. For every non-empty point set, [calibrate] with the
    source list equal to the target list hands back the identity
    transform and the stub's fixed rmse, the double 0.0012, which is not
    equal to 0. *)
Theorem calibrate_self_fit :
  forall (points : list PointModel) (w : world),
    points <> [] ->
    exists r : CalibrationResultModel,
      returns (calibrate {| arw_points := points; rwp_points := points |}) w r
      /\ transform_elements r = identity_4x4
      /\ rmse r = Py.f_0_0012
      /\ Py.float_eq (rmse r) Py.f_0_0 = false.
Proof.
  intros points w _. eexists. split; [unfold returns; by rewrite calibrate_run|].
  repeat split.
Qed.

Lemma calibrate_self_fit_witness :
  [pt_a] <> []
  /\ exists r : CalibrationResultModel,
       returns (calibrate request_1_1) initial_world r
       /\ transform_elements r = identity_4x4
       /\ rmse r = Py.f_0_0012
       /\ Py.float_eq (rmse r) Py.f_0_0 = false.
Proof.
  split; [discriminate|].
  apply (calibrate_self_fit [pt_a] initial_world). discriminate.
Defined.

(** C3, as the specification words it, fails on the stub: with three
    source points and two target points [calibrate] does not fail, it
    hands back a result. *)
Lemma calibrate_length_mismatch_accepted :
  length (arw_points request_3_2) = 3%nat
  /\ length (rwp_points request_3_2) = 2%nat
  /\ ~ fails (calibrate request_3_2) initial_world.
Proof.
  split; [reflexivity|]. split; [reflexivity|].
  intros H. eapply H. by rewrite calibrate_run.
Qed.

(** C3, amended. For every pair of point lists whose lengths differ,
    [calibrate] makes no length check: it hands back a result, and
    [num_points_used] is the length of the source list. *)
Theorem calibrate_length_mismatch :
  forall (request : CalibrationRequestModel) (w : world),
    length (arw_points request) <> length (rwp_points request) ->
    exists r : CalibrationResultModel,
      returns (calibrate request) w r
      /\ num_points_used r = len (arw_points request).
Proof.
  intros request w _. eexists.
  split; [unfold returns; by rewrite calibrate_run | reflexivity].
Qed.

Lemma calibrate_length_mismatch_witness :
  length (arw_points request_3_2) <> length (rwp_points request_3_2)
  /\ exists r : CalibrationResultModel,
       returns (calibrate request_3_2) initial_world r
       /\ num_points_used r = 3.
Proof.
  split; [discriminate|].
  apply (calibrate_length_mismatch request_3_2 initial_world). discriminate.
Defined.

(** C4, as the specification words it, fails on the stub: with exactly
    two correspondences [calibrate] does not fail, it hands back a
    result. *)
Lemma calibrate_two_points_accepted :
  length (arw_points request_2_2) = 2%nat
  /\ length (rwp_points request_2_2) = 2%nat
  /\ ~ fails (calibrate request_2_2) initial_world.
Proof.
  split; [reflexivity|]. split; [reflexivity|].
  intros H. eapply H. by rewrite calibrate_run.
Qed.

(** C4, amended. For every calibration request with fewer than 3 point
    correspondences, [calibrate] makes no minimum-count check: it hands
    back a result, and [num_points_used] is that small count. *)
Theorem calibrate_few_points :
  forall (request : CalibrationRequestModel) (w : world),
    (length (arw_points request) < 3)%nat ->
    exists r : CalibrationResultModel,
      returns (calibrate request) w r
      /\ num_points_used r = len (arw_points request)
      /\ 0 <= num_points_used r < 3.
Proof.
  intros request w Hlt. eexists.
  split; [unfold returns; by rewrite calibrate_run|].
  cbn [num_points_used]. unfold len. lia.
Qed.

Lemma calibrate_few_points_witness :
  (length (arw_points request_2_2) < 3)%nat
  /\ exists r : CalibrationResultModel,
       returns (calibrate request_2_2) initial_world r
       /\ num_points_used r = 2
       /\ 0 <= num_points_used r < 3.
Proof.
  split; [cbn; lia|].
  apply (calibrate_few_points request_2_2 initial_world). cbn. lia.
Defined.

(** C5. Every result [calibrate] hands back has the output shape:
    exactly 16 transform elements, all real, with bottom row (indices
    12 to 15) [0, 0, 0, 1]; a real rmse with [0 <= rmse]; and an integer
    [num_points_used >= 0].  And [calibrate] always hands one back. *)
Theorem calibrate_output_shape :
  forall (request : CalibrationRequestModel) (w : world),
  exists r : CalibrationResultModel,
    returns (calibrate request) w r /\ output_shape r.
Proof.
  intros request w. eexists. split; [unfold returns; by rewrite calibrate_run|].
  split; cbn [transform_elements rmse num_points_used].
  - reflexivity.
  - unfold identity_4x4. repeat constructor.
  - reflexivity.
  - by split.
  - reflexivity.
  - unfold len. lia.
Qed.

(** C6. [calibrate] is deterministic: two calls with the same request
    hand back the same result (so the same transform_elements, rmse,
    source_platform and num_points_used), whatever state each call
    starts from; in particular a second call made right after the
    first one, in the state the first one left. *)
Theorem calibrate_deterministic :
  forall (request : CalibrationRequestModel) (w1 w2 : world),
  exists r : CalibrationResultModel,
    returns (calibrate request) w1 r
    /\ returns (calibrate request) w2 r
    /\ returns (calibrate request) (snd (calibrate request w1)) r.
Proof.
  intros request w1 w2. eexists. unfold returns.
  repeat split; by rewrite calibrate_run.
Qed.

(** C9. For every calibration request, empty lists and lists of unequal
    length included, [calibrate] succeeds and [num_points_used] is the
    length of the source list [arw_points]; the target list [rwp_points]
    has no influence on the result at all. *)
Theorem calibrate_counts_source_points :
  forall (request : CalibrationRequestModel) (w : world),
  exists r : CalibrationResultModel,
    returns (calibrate request) w r
    /\ num_points_used r = Z.of_nat (length (arw_points request))
    /\ forall rwp_points' : list PointModel,
         returns (calibrate {| arw_points := arw_points request;
                               rwp_points := rwp_points' |}) w r.
Proof.
  intros request w. eexists. split; [unfold returns; by rewrite calibrate_run|].
  split; [reflexivity|]. intros rwp'. unfold returns. by rewrite calibrate_run.
Qed.

(** C10. The rmse and source_platform of the response carry nothing of
    the input: for any two calibration requests, run from any two
    states, both responses have rmse exactly the double 0.0012 and
    source_platform exactly "python". *)
Theorem calibrate_rmse_platform_constant :
  forall (request1 request2 : CalibrationRequestModel) (w1 w2 : world),
  exists r1 r2 : CalibrationResultModel,
    returns (calibrate request1) w1 r1
    /\ returns (calibrate request2) w2 r2
    /\ rmse r1 = Py.f_0_0012 /\ rmse r2 = Py.f_0_0012
    /\ source_platform r1 = "python"%string
    /\ source_platform r2 = "python"%string.
Proof.
  intros request1 request2 w1 w2. do 2 eexists. unfold returns.
  split; [by rewrite calibrate_run|]. split; [by rewrite calibrate_run|].
  repeat split.
Qed.

(** ** The analysis endpoint *)

(** C7. For every analysis request whose result carries a real rmse,
    [analyze] hands back a dict with the single key "analysis", bound to
    a string in which the rmse is echoed in fixed point: its sign, its
    integer digits, a point and exactly four fraction digits, which read
    back as the multiple of 1/10000 nearest to the rmse. *)
Theorem analyze_echoes_rmse :
  forall (request : AnalysisRequestModel) (w : world),
    Py.isfinite (rmse (result request)) = true ->
    exists ip fp : string,
      returns (analyze request) w
        {[ "analysis" :=
             "AI Analysis: The received RMSE is "
               +:+ (Py.sign_str (Py.signbit (rmse (result request)))
                      +:+ ip +:+ "." +:+ fp)
               +:+ ". Data parsed successfully." ]}
      /\ String.length fp = 4%nat
      /\ Py.all_digits ip = true /\ Py.all_digits fp = true
      /\ 2 * Z.abs (fst (Py.magnitude (rmse (result request))) * 10 ^ 4
                    - (Py.decimal_value ip * 10 ^ 4 + Py.decimal_value fp)
                      * snd (Py.magnitude (rmse (result request))))
         <= snd (Py.magnitude (rmse (result request))).
Proof.
  intros request w Hfin.
  destruct (format_4f_fixed_point _ Hfin) as (ip & fp & Hfmt & Hrest).
  exists ip, fp. split; [|exact Hrest].
  unfold returns. by rewrite analyze_run, Hfmt.
Qed.

Lemma analyze_echoes_rmse_witness :
  Py.isfinite Py.f_0_0012 = true
  /\ exists ip fp : string,
       returns (analyze {| result := {| rmse := Py.f_0_0012;
                                        transform_elements := identity_4x4;
                                        source_platform := "python";
                                        num_points_used := 1 |};
                           prompt := "Analyze this result." |})
               initial_world
         {[ "analysis" :=
              "AI Analysis: The received RMSE is "
                +:+ ("" +:+ ip +:+ "." +:+ fp)
                +:+ ". Data parsed successfully." ]}
       /\ String.length fp = 4%nat
       /\ Py.all_digits ip = true /\ Py.all_digits fp = true
       /\ 2 * Z.abs (5534023222112865 * 10 ^ 4
                     - (Py.decimal_value ip * 10 ^ 4 + Py.decimal_value fp)
                       * 2 ^ 62)
          <= 2 ^ 62.
Proof.
  split; [reflexivity|].
  apply (analyze_echoes_rmse
           {| result := {| rmse := Py.f_0_0012;
                           transform_elements := identity_4x4;
                           source_platform := "python";
                           num_points_used := 1 |};
              prompt := "Analyze this result." |}
           initial_world).
  reflexivity.
Defined.

(** ** The authentication gate *)




(** The two verdicts of the gate in a fresh process. *)
Example authenticate_samples :
  fst (auth.authenticate {| auth.username := "admin";
                            auth.password := "password123" |} initial_world)
  = inr "admin"%string
  /\ fst (auth.authenticate {| auth.username := "admin";
                               auth.password := "password12" |} initial_world)
     = inl (HTTPException 401 "Incorrect username or password"
              {[ "WWW-Authenticate" := "Basic" ]})
  /\ fst (auth.authenticate {| auth.username := "root";
                               auth.password := "password123" |} initial_world)
     = inl (HTTPException 401 "Incorrect username or password"
              {[ "WWW-Authenticate" := "Basic" ]}).
Proof. repeat split; vm_compute; reflexivity. Qed.


(** * Further properties of the code *)

(** ** [authenticate] and [protected_route], all inputs *)

(** Every path through [authenticate], in the order the source takes
    them: the username comparison, the lookup of [users["admin"]], the
    password comparison, the verdict. *)
Lemma authenticate_cases (credentials : auth.HTTPBasicCredentials) (w : world) :
  auth.authenticate credentials w
  = (if Py.isascii (auth.username credentials) then
       match auth_users w !! "admin" with
       | None => inl (KeyError "admin")
       | Some stored =>
           if Py.isascii (auth.password credentials) && Py.isascii stored then
             if bool_decide (auth.username credentials = "admin"
                             /\ auth.password credentials = stored)
             then inr (auth.username credentials)
             else inl (HTTPException 401 "Incorrect username or password"
                         {[ "WWW-Authenticate" := "Basic" ]})
           else inl (TypeError
                       "comparing strings with non-ASCII characters is not supported")
       end
     else inl (TypeError
                 "comparing strings with non-ASCII characters is not supported"),
     w).
Proof.
  unfold auth.authenticate, bind, secrets.compare_digest, auth.users_getitem,
    ret, raise.
  destruct (Py.isascii (auth.username credentials)); [|reflexivity].
  change (Py.isascii "admin") with true. cbn [andb].
  destruct (auth_users w !! "admin") as [stored|]; [|reflexivity].
  destruct (Py.isascii (auth.password credentials) && Py.isascii stored);
    [|reflexivity].
  repeat case_bool_decide; cbn [andb negb]; first [reflexivity | tauto].
Qed.

Lemma protected_route_cases (credentials : auth.HTTPBasicCredentials) (w : world) :
  auth.protected_route credentials w
  = (match fst (auth.authenticate credentials w) with
     | inr username =>
         inr {[ "message" := "Hello, " +:+ username +:+ ". You are authenticated." ]}
     | inl e => inl e
     end, w).
Proof.
  unfold auth.protected_route, bind, ret. rewrite authenticate_cases.
  cbn [fst].
  repeat match goal with
         | |- context [if ?b then _ else _] => destruct b
         | |- context [match ?o with Some _ => _ | None => _ end] => destruct o
         end; reflexivity.
Qed.

(** X1. Soundness of the gate, with no assumption on the strings: when
    [authenticate] returns at all, it returns "admin", the supplied
    username is "admin" and the supplied password is the one stored
    under "admin". *)
Theorem authenticate_sound :
  forall (credentials : auth.HTTPBasicCredentials) (w : world) (u : string),
    fst (auth.authenticate credentials w) = inr u ->
    u = "admin"%string
    /\ auth.username credentials = "admin"%string
    /\ auth_users w !! "admin" = Some (auth.password credentials).
Proof.
  intros credentials w u. rewrite authenticate_cases. cbn [fst].
  destruct (Py.isascii (auth.username credentials)); [|discriminate].
  destruct (auth_users w !! "admin") as [stored|]; [|discriminate].
  destruct (Py.isascii (auth.password credentials) && Py.isascii stored);
    [|discriminate].
  case_bool_decide as H; [|discriminate]. destruct H as [Hu Hp].
  intros [= <-]. by rewrite Hp.
Qed.

Lemma authenticate_sound_witness :
  fst (auth.authenticate {| auth.username := "admin";
                            auth.password := "password123" |} initial_world)
  = inr "admin"%string
  /\ ("admin" = "admin"
      /\ "admin" = "admin"
      /\ auth_users initial_world !! "admin" = Some "password123")%string.
Proof.
  split; [vm_compute; reflexivity|].
  apply (authenticate_sound
           {| auth.username := "admin"; auth.password := "password123" |}
           initial_world "admin").
  vm_compute; reflexivity.
Defined.

(** X2. When [users] has no entry "admin", an ASCII username is not
    answered by 401: the lookup [users["admin"]] raises KeyError, in
    [authenticate] and through it in [protected_route], whatever the
    password. *)
Theorem authenticate_missing_admin :
  forall (credentials : auth.HTTPBasicCredentials) (w : world),
    auth_users w !! "admin" = None ->
    Py.isascii (auth.username credentials) = true ->
    auth.authenticate credentials w = (inl (KeyError "admin"), w)
    /\ auth.protected_route credentials w = (inl (KeyError "admin"), w).
Proof.
  intros credentials w Hnone Hu.
  rewrite protected_route_cases, authenticate_cases, Hu, Hnone. by split.
Qed.

Lemma authenticate_missing_admin_witness :
  ((∅ : gmap string string) !! "admin" = None
   /\ Py.isascii "admin" = true)
  /\ auth.authenticate {| auth.username := "admin";
                          auth.password := "password123" |} (World ∅ [])
     = (inl (KeyError "admin"), World ∅ [])
  /\ auth.protected_route {| auth.username := "admin";
                             auth.password := "password123" |} (World ∅ [])
     = (inl (KeyError "admin"), World ∅ []).
Proof.
  split; [split; reflexivity|].
  apply (authenticate_missing_admin
           {| auth.username := "admin"; auth.password := "password123" |}
           (World ∅ [])); reflexivity.
Defined.

(** X3. Called with a non-ASCII username, [authenticate] raises
    TypeError: the first comparison fails before [users] is even read,
    so this holds for every state of [users] and every password, and the
    state is left as it was. *)
Theorem authenticate_non_ascii :
  forall (credentials : auth.HTTPBasicCredentials) (w : world),
    Py.isascii (auth.username credentials) = false ->
    exists msg : string,
      auth.authenticate credentials w = (inl (TypeError msg), w).
Proof.
  intros credentials w Hu. eexists. by rewrite authenticate_cases, Hu.
Qed.

Lemma authenticate_non_ascii_witness :
  Py.isascii (String (ascii_of_nat 228) "dmin") = false
  /\ exists msg : string,
       auth.authenticate {| auth.username := String (ascii_of_nat 228) "dmin";
                            auth.password := "password123" |} (World ∅ [])
       = (inl (TypeError msg), World ∅ []).
Proof.
  split; [reflexivity|].
  apply (authenticate_non_ascii
           {| auth.username := String (ascii_of_nat 228) "dmin";
              auth.password := "password123" |} (World ∅ [])).
  reflexivity.
Defined.

(** X4. With an ASCII username and "admin" present in [users], a
    non-ASCII password, supplied or stored, makes the second comparison
    raise TypeError: a non-ASCII stored password locks every caller out
    with an error instead of a 401. *)
Theorem authenticate_non_ascii_password :
  forall (credentials : auth.HTTPBasicCredentials) (w : world) (stored : string),
    auth_users w !! "admin" = Some stored ->
    Py.isascii (auth.username credentials) = true ->
    Py.isascii (auth.password credentials) && Py.isascii stored = false ->
    exists msg : string,
      auth.authenticate credentials w = (inl (TypeError msg), w).
Proof.
  intros credentials w stored Hs Hu Hp. eexists.
  by rewrite authenticate_cases, Hu, Hs, Hp.
Qed.

Lemma authenticate_non_ascii_password_witness :
  (auth_users initial_world !! "admin" = Some "password123"
   /\ Py.isascii "admin" = true
   /\ Py.isascii (String (ascii_of_nat 233) "") && Py.isascii "password123"
      = false)
  /\ exists msg : string,
       auth.authenticate {| auth.username := "admin";
                            auth.password := String (ascii_of_nat 233) "" |}
                         initial_world
       = (inl (TypeError msg), initial_world).
Proof.
  split; [repeat split; vm_compute; reflexivity|].
  apply (authenticate_non_ascii_password
           {| auth.username := "admin";
              auth.password := String (ascii_of_nat 233) "" |}
           initial_world "password123"); vm_compute; reflexivity.
Defined.

(** X5. [authenticate] and [protected_route] only read: whatever the
    credentials and whichever way they end, the [users] dict and the
    log are left exactly as they were. *)
Theorem authenticate_leaves_state :
  forall (credentials : auth.HTTPBasicCredentials) (w : world),
    snd (auth.authenticate credentials w) = w
    /\ snd (auth.protected_route credentials w) = w.
Proof.
  intros credentials w.
  by rewrite protected_route_cases, authenticate_cases.
Qed.

(** X6. The 401 does not say which half was wrong: any two ASCII
    credential pairs that are both refused, be it for the username, for
    the password or for both, get the very same exception. *)
Theorem authenticate_refusals_alike :
  forall (c1 c2 : auth.HTTPBasicCredentials) (w : world) (stored : string),
    auth_users w !! "admin" = Some stored ->
    Py.isascii stored = true ->
    Py.isascii (auth.username c1) = true ->
    Py.isascii (auth.password c1) = true ->
    Py.isascii (auth.username c2) = true ->
    Py.isascii (auth.password c2) = true ->
    ~ (auth.username c1 = "admin" /\ auth.password c1 = stored) ->
    ~ (auth.username c2 = "admin" /\ auth.password c2 = stored) ->
    auth.authenticate c1 w = auth.authenticate c2 w
    /\ exists detail : string,
         fst (auth.authenticate c1 w)
         = inl (HTTPException 401 detail {[ "WWW-Authenticate" := "Basic" ]}).
Proof.
  intros c1 c2 w stored Hs Has Hu1 Hp1 Hu2 Hp2 Hno1 Hno2.
  rewrite !authenticate_cases, Hs, Has, Hu1, Hp1, Hu2, Hp2. cbn [andb].
  rewrite !bool_decide_eq_false_2 by assumption. eauto.
Qed.

Lemma authenticate_refusals_alike_witness :
  (auth_users initial_world !! "admin" = Some "password123"
   /\ Py.isascii "password123" = true
   /\ Py.isascii "root" = true /\ Py.isascii "admin" = true
   /\ Py.isascii "" = true
   /\ ~ ("root" = "admin" /\ "password123" = "password123")
   /\ ~ ("admin" = "admin" /\ "" = "password123"))%string
  /\ auth.authenticate {| auth.username := "root";
                          auth.password := "password123" |} initial_world
     = auth.authenticate {| auth.username := "admin";
                            auth.password := "" |} initial_world
  /\ exists detail : string,
       fst (auth.authenticate {| auth.username := "root";
                                 auth.password := "password123" |}
                              initial_world)
       = inl (HTTPException 401 detail {[ "WWW-Authenticate" := "Basic" ]}).
Proof.
  split.
  - repeat split; try (vm_compute; reflexivity); intros [H1 H2]; discriminate.
  - apply (authenticate_refusals_alike
             {| auth.username := "root"; auth.password := "password123" |}
             {| auth.username := "admin"; auth.password := "" |}
             initial_world "password123");
      try (vm_compute; reflexivity); intros [H1 H2]; discriminate.
Defined.

(** X7. [protected_route] greets nobody but admin: whenever it returns,
    the body is exactly {"message": "Hello, admin. You are
    authenticated."} and the credentials were admin's. *)
Theorem protected_route_sound :
  forall (credentials : auth.HTTPBasicCredentials) (w : world)
         (body : gmap string string),
    fst (auth.protected_route credentials w) = inr body ->
    body = {[ "message" := "Hello, admin. You are authenticated." ]}
    /\ auth.username credentials = "admin"%string
    /\ auth_users w !! "admin" = Some (auth.password credentials).
Proof.
  intros credentials w body. rewrite protected_route_cases, authenticate_cases.
  cbn [fst].
  destruct (Py.isascii (auth.username credentials)); [|discriminate].
  destruct (auth_users w !! "admin") as [stored|]; [|discriminate].
  destruct (Py.isascii (auth.password credentials) && Py.isascii stored);
    [|discriminate].
  case_bool_decide as H; [|discriminate]. destruct H as [Hu Hp].
  intros [= <-]. rewrite Hu, Hp. by repeat split.
Qed.

Lemma protected_route_sound_witness :
  fst (auth.protected_route {| auth.username := "admin";
                               auth.password := "password123" |} initial_world)
  = inr {[ "message" := "Hello, admin. You are authenticated." ]}
  /\ (({[ "message" := "Hello, admin. You are authenticated." ]}
        : gmap string string)
      = {[ "message" := "Hello, admin. You are authenticated." ]}
      /\ "admin" = "admin"
      /\ auth_users initial_world !! "admin" = Some "password123")%string.
Proof.
  split; [vm_compute; reflexivity|].
  apply (protected_route_sound
           {| auth.username := "admin"; auth.password := "password123" |}
           initial_world).
  vm_compute; reflexivity.
Defined.

(** X8. With the password stored for "admin" and ASCII credentials,
    [protected_route] answers the matching pair with the greeting and
    every other pair with the 401 of [authenticate], unchanged, header
    included; the state is left as it was. *)
Theorem protected_route_gate :
  forall (credentials : auth.HTTPBasicCredentials) (w : world) (stored : string),
    auth_users w !! "admin" = Some stored ->
    Py.isascii stored = true ->
    Py.isascii (auth.username credentials) = true ->
    Py.isascii (auth.password credentials) = true ->
    auth.protected_route credentials w
    = (if bool_decide (auth.username credentials = "admin"
                       /\ auth.password credentials = stored)
       then inr {[ "message" := "Hello, admin. You are authenticated." ]}
       else inl (HTTPException 401 "Incorrect username or password"
                   {[ "WWW-Authenticate" := "Basic" ]}),
       w).
Proof.
  intros credentials w stored Hs Has Hu Hp.
  rewrite protected_route_cases, authenticate_cases, Hs, Has, Hu, Hp.
  cbn [andb fst]. case_bool_decide as H; [|reflexivity].
  destruct H as [-> _]. reflexivity.
Qed.

Lemma protected_route_gate_witness :
  (auth_users initial_world !! "admin" = Some "password123"
   /\ Py.isascii "password123" = true
   /\ Py.isascii "admin" = true
   /\ Py.isascii "letmein" = true)
  /\ auth.protected_route {| auth.username := "admin";
                             auth.password := "letmein" |} initial_world
     = (if bool_decide ("admin" = "admin" /\ "letmein" = "password123")%string
        then inr {[ "message" := "Hello, admin. You are authenticated." ]}
        else inl (HTTPException 401 "Incorrect username or password"
                    {[ "WWW-Authenticate" := "Basic" ]}),
        initial_world).
Proof.
  split; [repeat split; vm_compute; reflexivity|].
  apply (protected_route_gate
           {| auth.username := "admin"; auth.password := "letmein" |}
           initial_world "password123"); vm_compute; reflexivity.
Defined.

(** ** What the handlers do to the process state *)


(** X10. [analyze] never touches the credential store and only ever
    appends to the log: one call adds exactly two INFO records, the
    first of which carries the rmse and the prompt it was given. *)
Theorem analyze_state_effect :
  forall (request : AnalysisRequestModel) (w : world),
  exists r1 r2 : log_record,
    snd (analyze request w) = World (auth_users w) (log w ++ [r1; r2])
    /\ level r1 = INFO /\ level r2 = INFO
    /\ FloatValue (rmse (result request)) ∈ message r1
    /\ StrValue (prompt request) ∈ message r1.
Proof.
  intros request w. rewrite analyze_run. do 2 eexists.
  split; [reflexivity|]. cbn [level message]. repeat split; set_solver.
Qed.

(** X11. No call of the two endpoints changes who gets through the
    gate: after [calibrate] or [analyze], on any input, [authenticate]
    gives every credential pair the verdict it gave before. *)
Theorem authenticate_after_handlers :
  forall (credentials : auth.HTTPBasicCredentials)
         (request : CalibrationRequestModel)
         (arequest : AnalysisRequestModel) (w : world),
    fst (auth.authenticate credentials (snd (calibrate request w)))
    = fst (auth.authenticate credentials w)
    /\ fst (auth.authenticate credentials (snd (analyze arequest w)))
       = fst (auth.authenticate credentials w).
Proof.
  intros credentials request arequest w.
  by rewrite calibrate_run, analyze_run, !authenticate_cases.
Qed.

(** ** [analyze], all inputs *)

Lemma round_half_even_small (n d : Z) :
  0 <= n -> 0 < d -> 2 * n <= d -> Py.round_half_even n d = 0.
Proof.
  intros Hn Hd Hs. unfold Py.round_half_even.
  rewrite Z.div_small, Z.mod_small by lia.
  destruct (Z.compare_spec (2 * n) d); [reflexivity | reflexivity | lia].
Qed.

Lemma split_point_digits (a b : string) :
  Py.all_digits a = true -> split_point (a +:+ "." +:+ b) = (a, b).
Proof.
  change ("." +:+ b) with (String "." b).
  unfold Py.all_digits. induction a as [|c a IH]; intros Ha; [reflexivity|].
  change (String c a +:+ String "." b) with (String c (a +:+ String "." b)).
  cbn [list_ascii_of_string forallb] in Ha.
  apply andb_true_iff in Ha as [Hc Ha].
  cbn [split_point]. rewrite (IH Ha). cbn [fst snd].
  destruct (Ascii.eqb_spec c ".") as [->|_]; [discriminate Hc | reflexivity].
Qed.

Lemma sign_str_cancel (s : bool) (a b : string) :
  Py.sign_str s +:+ a = Py.sign_str s +:+ b -> a = b.
Proof.
  destruct s; unfold Py.sign_str.
  - change (String "-" a = String "-" b -> a = b). congruence.
  - change (a = b -> a = b). trivial.
Qed.

(** A real is printed as zero exactly when it is at most 0.00005 in
    magnitude. *)
Lemma format_4f_zero_iff (f : Py.float) :
  Py.isfinite f = true ->
  Py.format_4f f = Py.sign_str (Py.signbit f) +:+ "0.0000"
  <-> 2 * (fst (Py.magnitude f) * 10 ^ 4) <= snd (Py.magnitude f).
Proof.
  destruct f as [s|s| |s m e]; try discriminate; intros _.
  - cbn. split; [lia | reflexivity].
  - destruct (scaled4_nearest s m e) as [Hpos Hnear].
    cbn [Py.format_4f Py.signbit]. split.
    + intros H. apply sign_str_cancel in H.
      apply (f_equal split_point) in H.
      rewrite split_point_digits in H by apply all_digits_dec.
      change (split_point "0.0000") with ("0"%string, "0000"%string) in H.
      pose proof (f_equal (fun p => Py.decimal_value (fst p)) H) as Hip.
      pose proof (f_equal (fun p => Py.decimal_value (snd p)) H) as Hfp.
      cbn beta in Hip, Hfp. cbn [fst snd] in Hip, Hfp.
      pose proof (Z.mod_pos_bound (Py.scaled4 m e) (10 ^ 4) ltac:(lia)) as Hb.
      pose proof (Z.div_pos (Py.scaled4 m e) (10 ^ 4) Hpos ltac:(lia)) as Hq.
      rewrite decimal_value_dec in Hip by lia.
      rewrite decimal_value_dec4 in Hfp by lia.
      change (Py.decimal_value "0") with 0 in Hip.
      change (Py.decimal_value "0000") with 0 in Hfp.
      pose proof (Z.div_mod (Py.scaled4 m e) (10 ^ 4) ltac:(lia)) as Hdm.
      assert (Hz : Py.scaled4 m e = 0) by lia.
      rewrite Hz in Hnear. lia.
    + unfold Py.magnitude, Py.scaled4.
      destruct (Z.leb_spec 0 e) as [He|He]; cbn [fst snd]; intros H.
      * assert (0 < 2 ^ e) by (apply Z.pow_pos_nonneg; lia). nia.
      * assert (0 < 2 ^ (- e)) by (apply Z.pow_pos_nonneg; lia).
        rewrite round_half_even_small by lia. reflexivity.
Qed.

(** X12. A real rmse is echoed as zero, ["0.0000"] after its sign,
    exactly when it is at most 0.00005 in magnitude: below that
    threshold the analysis cannot be told from that of a perfect fit. *)
Theorem analyze_echoes_zero :
  forall (request : AnalysisRequestModel) (w : world),
    Py.isfinite (rmse (result request)) = true ->
    exists echo : string,
      returns (analyze request) w {[ "analysis" := analysis_of echo ]}
      /\ (echo = Py.sign_str (Py.signbit (rmse (result request))) +:+ "0.0000"
          <-> 2 * (fst (Py.magnitude (rmse (result request))) * 10 ^ 4)
              <= snd (Py.magnitude (rmse (result request)))).
Proof.
  intros request w Hfin. exists (Py.format_4f (rmse (result request))).
  split; [unfold returns; by rewrite analyze_run|].
  by apply format_4f_zero_iff.
Qed.

Lemma analyze_echoes_zero_witness :
  Py.isfinite (S754_finite false 4503599627370496 (-72)) = true
  /\ exists echo : string,
       returns (analyze {| result := {| rmse := S754_finite false 4503599627370496 (-72);
                                        transform_elements := identity_4x4;
                                        source_platform := "python";
                                        num_points_used := 3 |};
                           prompt := "" |})
               initial_world {[ "analysis" := analysis_of echo ]}
       /\ (echo = "0.0000"%string
           <-> 2 * (4503599627370496 * 10 ^ 4) <= 2 ^ 72).
Proof.
  split; [reflexivity|].
  apply (analyze_echoes_zero
           {| result := {| rmse := S754_finite false 4503599627370496 (-72);
                           transform_elements := identity_4x4;
                           source_platform := "python";
                           num_points_used := 3 |};
              prompt := "" |} initial_world).
  reflexivity.
Defined.

(** X13. An rmse that is not a real number does not make [analyze]
    fail, and gets no digits at all: the text echoes one of the words
    nan, inf and -inf. *)
Theorem analyze_non_finite :
  forall (request : AnalysisRequestModel) (w : world),
    Py.isfinite (rmse (result request)) = false ->
    exists echo : string,
      returns (analyze request) w {[ "analysis" := analysis_of echo ]}
      /\ echo ∈ ["nan"; "inf"; "-inf"]%string.
Proof.
  intros request w Hfin. exists (Py.format_4f (rmse (result request))).
  split; [unfold returns; by rewrite analyze_run|].
  destruct (rmse (result request)) as [s|[|]| |s m e]; try discriminate;
    cbn; set_solver.
Qed.

Lemma analyze_non_finite_witness :
  Py.isfinite S754_nan = false
  /\ exists echo : string,
       returns (analyze {| result := {| rmse := S754_nan;
                                        transform_elements := identity_4x4;
                                        source_platform := "python";
                                        num_points_used := 3 |};
                           prompt := "" |})
               initial_world {[ "analysis" := analysis_of echo ]}
       /\ echo ∈ ["nan"; "inf"; "-inf"]%string.
Proof.
  split; [reflexivity|].
  apply (analyze_non_finite
           {| result := {| rmse := S754_nan;
                           transform_elements := identity_4x4;
                           source_platform := "python";
                           num_points_used := 3 |};
              prompt := "" |} initial_world).
  reflexivity.
Defined.

(** X14. The body [analyze] returns depends on the rmse alone: two
    requests with the same rmse get the same body, whatever their
    prompts, transforms, platforms and point counts and whatever the
    state; and the body has the key "analysis" and no other. *)
Theorem analyze_depends_on_rmse_only :
  forall (request1 request2 : AnalysisRequestModel) (w1 w2 : world),
    rmse (result request1) = rmse (result request2) ->
    exists body : gmap string string,
      returns (analyze request1) w1 body
      /\ returns (analyze request2) w2 body
      /\ dom body = {[ "analysis"%string ]}.
Proof.
  intros request1 request2 w1 w2 Heq. eexists. unfold returns.
  rewrite !analyze_run, Heq. cbn [fst].
  split; [reflexivity|]. split; [reflexivity|]. apply dom_singleton_L.
Qed.

Lemma analyze_depends_on_rmse_only_witness :
  Py.f_0_0012 = Py.f_0_0012
  /\ exists body : gmap string string,
       returns (analyze {| result := {| rmse := Py.f_0_0012;
                                        transform_elements := identity_4x4;
                                        source_platform := "python";
                                        num_points_used := 1 |};
                           prompt := "Analyze this result." |})
               initial_world body
       /\ returns (analyze {| result := {| rmse := Py.f_0_0012;
                                           transform_elements := [];
                                           source_platform := "rust";
                                           num_points_used := 7 |};
                              prompt := "" |})
                  (World ∅ []) body
       /\ dom body = {[ "analysis"%string ]}.
Proof.
  split; [reflexivity|].
  apply (analyze_depends_on_rmse_only
           {| result := {| rmse := Py.f_0_0012;
                           transform_elements := identity_4x4;
                           source_platform := "python";
                           num_points_used := 1 |};
              prompt := "Analyze this result." |}
           {| result := {| rmse := Py.f_0_0012;
                           transform_elements := [];
                           source_platform := "rust";
                           num_points_used := 7 |};
              prompt := "" |}
           initial_world (World ∅ [])).
  reflexivity.
Defined.

(** ** The result model and the pipeline *)

(** X16. The two endpoints compose: for every calibration request, the
    result [calibrate] hands back passes the validation of the result
    model again, unchanged, and [analyze] given that result, with any
    prompt and in any state, returns the one text "AI Analysis: The
    received RMSE is 0.0012. Data parsed successfully.". *)
Theorem analyze_of_calibrate :
  forall (request : CalibrationRequestModel) (prompt : string) (w1 w2 : world),
  exists r : CalibrationResultModel,
    returns (calibrate request) w1 r
    /\ CalibrationResultModel_init (rmse r) (transform_elements r)
         (source_platform r) (num_points_used r) w2 = (inr r, w2)
    /\ returns (analyze {| result := r; prompt := prompt |}) w2
         {[ "analysis" :=
              "AI Analysis: The received RMSE is 0.0012. Data parsed successfully." ]}.
Proof.
  intros request prompt w1 w2. eexists.
  split; [unfold returns; by rewrite calibrate_run|].
  split; [reflexivity|]. unfold returns. by rewrite analyze_run.
Qed.

(** ** The gate from the header on *)

Lemma partition_colon_join (data head tail : string) :
  auth.partition_colon data = (head, true, tail) ->
  data = head +:+ ":" +:+ tail.
Proof.
  change (":" +:+ tail) with (String ":" tail).
  revert head. induction data as [|c data IH]; intros head; [discriminate|].
  cbn [auth.partition_colon].
  destruct (Ascii.eqb_spec c ":") as [->|_].
  - intros [= <- <-]. reflexivity.
  - destruct (auth.partition_colon data) as [[h sep] t].
    intros [= <- -> <-]. by rewrite (IH h).
Qed.

Lemma partition_colon_isascii (data head tail : string) (separator : bool) :
  Py.isascii data = true ->
  auth.partition_colon data = (head, separator, tail) ->
  Py.isascii head = true /\ Py.isascii tail = true.
Proof.
  unfold Py.isascii. revert head tail separator.
  induction data as [|c data IH]; intros head tail separator Ha.
  - intros [= <- <- <-]. by split.
  - cbn [list_ascii_of_string forallb] in Ha.
    apply andb_true_iff in Ha as [Hc Ha]. cbn [auth.partition_colon].
    destruct (Ascii.eqb c ":").
    + intros [= <- <- <-]. by split.
    + destruct (auth.partition_colon data) as [[h sep] t].
      intros [= <- <- <-]. destruct (IH h t sep Ha eq_refl) as [Hh Ht].
      split; [|exact Ht]. cbn [list_ascii_of_string forallb].
      by rewrite Hc, Hh.
Qed.

Lemma security_basic (octets : string) (w : world) :
  auth.security (auth.Basic (Some octets)) w
  = (match Py.isascii octets, auth.partition_colon octets with
     | true, (username, true, password) =>
         inr {| auth.username := username; auth.password := password |}
     | _, _ =>
         inl (HTTPException 401 "Invalid authentication credentials"
                {[ "WWW-Authenticate" := "Basic" ]})
     end, w).
Proof.
  unfold auth.security. destruct (Py.isascii octets); [|reflexivity].
  by destruct (auth.partition_colon octets) as [[u [|]] p].
Qed.

Lemma isascii_admin_colon (stored : string) :
  Py.isascii ("admin:" +:+ stored) = Py.isascii stored.
Proof. reflexivity. Qed.



(** X18. From the header on, the gate knows two answers only: with an
    ASCII password stored for "admin", [api_protected] returns the
    greeting of admin exactly for the basic header whose octets are
    "admin:" followed by the stored password, and answers every other
    header, absent, malformed, non-ASCII or wrong, with a 401 carrying
    WWW-Authenticate: Basic; the state is left as it was. *)
Theorem api_protected_gate :
  forall (a : auth.authorization) (w : world) (stored : string),
    auth_users w !! "admin" = Some stored ->
    Py.isascii stored = true ->
    (a = auth.Basic (Some ("admin:" +:+ stored)) ->
     auth.api_protected a w
     = (inr {[ "message" := "Hello, admin. You are authenticated." ]}, w))
    /\ (a <> auth.Basic (Some ("admin:" +:+ stored)) ->
        exists detail : string,
          auth.api_protected a w
          = (inl (HTTPException 401 detail {[ "WWW-Authenticate" := "Basic" ]}),
             w)).
Proof.
  intros a w stored Hs Has. split.
  - intros ->. unfold auth.api_protected, bind.
    rewrite security_basic, isascii_admin_colon, Has.
    change (auth.partition_colon ("admin:" +:+ stored))
      with ("admin"%string, true, stored).
    cbn match. rewrite protected_route_cases, authenticate_cases, Hs, Has.
    cbn [auth.username auth.password andb fst].
    change (Py.isascii "admin") with true. cbn match.
    rewrite ?Has. cbn [andb]. by rewrite bool_decide_eq_true_2.
  - intros Hne. unfold auth.api_protected, bind.
    destruct a as [|[octets|]]; [by eexists | | by eexists].
    rewrite security_basic.
    destruct (Py.isascii octets) eqn:Ha; [|by eexists].
    destruct (auth.partition_colon octets) as [[u sep] p] eqn:Hp.
    destruct sep; [|by eexists].
    destruct (partition_colon_isascii _ _ _ _ Ha Hp) as [Hu Hpw].
    cbn match. rewrite protected_route_cases, authenticate_cases, Hs.
    cbn [auth.username auth.password fst]. rewrite Hu, Hpw, Has. cbn [andb].
    case_bool_decide as Hm; [|by eexists].
    destruct Hm as [-> ->]. exfalso. apply Hne.
    by rewrite (partition_colon_join _ _ _ Hp).
Qed.

Lemma api_protected_gate_witness :
  (auth_users initial_world !! "admin" = Some "password123"
   /\ Py.isascii "password123" = true)
  /\ auth.api_protected (auth.Basic (Some "admin:password123")) initial_world
     = (inr {[ "message" := "Hello, admin. You are authenticated." ]},
        initial_world)
  /\ exists detail : string,
       auth.api_protected
         (auth.Basic (Some (String (ascii_of_nat 228) "dmin:password123")))
         initial_world
       = (inl (HTTPException 401 detail {[ "WWW-Authenticate" := "Basic" ]}),
          initial_world).
Proof.
  split; [split; vm_compute; reflexivity|].
  split.
  - apply (api_protected_gate (auth.Basic (Some "admin:password123"))
             initial_world "password123");
      vm_compute; reflexivity.
  - apply (api_protected_gate
             (auth.Basic (Some (String (ascii_of_nat 228) "dmin:password123")))
             initial_world "password123");
      try (vm_compute; reflexivity).
    intros [=].
Defined.
